(** * fleaker.config: multi-source configuration of an application

  A shallow embedding of [src/fleaker/config.py]
  ([MultiStageConfigurableApp]) together with the pieces of the Python
  runtime it calls ([os.path.splitext], indexing a string; [str.isupper]
  is taken from the interpreter as it is),
  and the properties of the dispatcher, the whitelist filter and the
  environment shortcut. *)

From Stdlib Require Import ZArith Ascii String List Lia Bool.
From stdpp Require Import base gmap strings list fin_maps pretty.

Local Open Scope string_scope.
Local Open Scope Z_scope.

(** ** Python strings *)

Module PyStr.

(** [s[i]] for [0 <= i]; [None] is Python's IndexError. *)
Fixpoint getitem (s : string) (i : nat) : option ascii :=
  match s, i with
  | EmptyString, _ => None
  | String a _, O => Some a
  | String _ s', S i' => getitem s' i'
  end.

(** [s[:n]] and [s[n:]] for [0 <= n]. *)
Fixpoint slice_to (n : nat) (s : string) : string :=
  match n, s with
  | O, _ => EmptyString
  | S _, EmptyString => EmptyString
  | S n', String a s' => String a (slice_to n' s')
  end.

Fixpoint slice_from (n : nat) (s : string) : string :=
  match n, s with
  | O, _ => s
  | S _, EmptyString => EmptyString
  | S n', String _ s' => slice_from n' s'
  end.

(** [s.rfind(c)] for a one-character [c]: the highest index holding [c],
    or [-1]. The scan keeps the last hit seen so far. *)
Fixpoint rfind_from (c : ascii) (s : string) (i : Z) (last : Z) : Z :=
  match s with
  | EmptyString => last
  | String a s' =>
      rfind_from c s' (i + 1) (if Ascii.eqb a c then i else last)
  end.

Definition rfind (s : string) (c : ascii) : Z := rfind_from c s 0 (-1).

End PyStr.

(** ** os.path.splitext (posixpath) *)

(** [posixpath.splitext] calls [genericpath._splitext] with [sep = '/'],
    no [altsep] and [extsep = '.']. *)

Module PosixPath.
Import PyStr.

Definition sep : ascii := "/"%char.
Definition altsep : option ascii := None.
Definition extsep : ascii := "."%char.

(** The [while filenameIndex < dotIndex] loop of [genericpath._splitext]:
    [n] is the number of iterations left, [dotIndex - filenameIndex].
    [Some] is the [return] inside the loop, [None] is falling out of it. *)
Fixpoint skip_leading_dots (p : string) (extsep : ascii)
    (filenameIndex dotIndex : Z) (n : nat) : option (string * string) :=
  match n with
  | O => None
  | S n' =>
      if negb (bool_decide (getitem p (Z.to_nat filenameIndex) = Some extsep))
      then Some (slice_to (Z.to_nat dotIndex) p,
                 slice_from (Z.to_nat dotIndex) p)
      else skip_leading_dots p extsep (filenameIndex + 1) dotIndex n'
  end.

Definition _splitext (p : string) (sep : ascii) (altsep : option ascii)
    (extsep : ascii) : string * string :=
  let sepIndex := rfind p sep in
  let sepIndex :=
    match altsep with
    | Some a => Z.max sepIndex (rfind p a)
    | None => sepIndex
    end in
  let dotIndex := rfind p extsep in
  let fallthrough := (p, slice_to 0 p) in
  if dotIndex >? sepIndex then
    let filenameIndex := sepIndex + 1 in
    match skip_leading_dots p extsep filenameIndex dotIndex
            (Z.to_nat (dotIndex - filenameIndex)) with
    | Some r => r
    | None => fallthrough
    end
  else fallthrough.

Definition splitext (p : string) : string * string :=
  _splitext p sep altsep extsep.

End PosixPath.

(** ** Python objects and dicts *)

(** The objects that reach [configure]: configuration values and sources.
  A module or a class is known by its attributes ([dir] and [getattr]), an
  object with an [items] method by the pairs that method yields. *)
#[warnings="-register-all"]
Inductive pyobj : Type :=
| PyNone
| PyBool (b : bool)
| PyInt (n : Z)
| PyStr (s : string)
| PyTuple (elts : list pyobj)
| PyModuleOrClass (attrs : list (string * pyobj))
| PyMapping (items : list (string * pyobj)).

Abbreviation items_t := (list (string * pyobj)).

Module PyDict.

(** [d[k] = v] on a dict held as its [items()] in insertion order: an
    existing key keeps its place and takes the new value. *)
Fixpoint setitem (d : items_t) (k : string) (v : pyobj) : items_t :=
  match d with
  | [] => [(k, v)]
  | (k', v') :: d' =>
      if bool_decide (k' = k) then (k, v) :: d'
      else (k', v') :: setitem d' k v
  end.

(** [{k: v for k, v in items if cond(k)}], as the [items()] of the new
    dict. *)
Definition comprehension (cond : string -> bool) (items : items_t) : items_t :=
  foldl (fun d kv => if cond kv.1 then setitem d kv.1 kv.2 else d) [] items.

(** The value a dict built from [items] holds at [k]: the last pair for
    [k]. For the items of a real dict there is at most one. *)
Fixpoint get (items : items_t) (k : string) : option pyobj :=
  match items with
  | [] => None
  | (k', v) :: rest =>
      match get rest k with
      | Some w => Some w
      | None => if bool_decide (k' = k) then Some v else None
      end
  end.

End PyDict.

(** ** Outcomes of a call *)

Inductive result (E A : Type) : Type :=
| Ok (a : A)
| Err (e : E).
Arguments Ok {E A} a.
Arguments Err {E A} e.

(** Exceptions seen by a caller of [configure]. [Propagated] is whatever
  [open], [json.loads], [exec] or [importlib] raised, surfaced unchanged. *)
Inductive exn : Type :=
| TypeError (msg : string)
| IndexError
| Propagated (e : string).

(** What a call hands back: the host object [self], or [None]. *)
Inductive retval : Type :=
| RetSelf
| RetNone.

Inductive outcome : Type :=
| Returns (r : retval)
| Raises (e : exn).

(** ** The world outside the program: the interpreter's [isupper], files,
    the import system and the environment *)

Record world : Type := World {
(** [key.isupper()] as the interpreter computes it, with its own tables of
    cased characters. *)
str_isupper : string -> bool;
(** [json.loads(open(filename).read())], as the pairs of the top-level
    object. *)
load_json : string -> result string items_t;
(** executing a [.py]/[.cfg] file: the names it defines. *)
exec_pyfile : string -> result string items_t;
(** [importlib.import_module(name, package=package)]: the attributes of
    the module. *)
import_module : string -> option string -> result string items_t;
(** [os.environ.items()]. *)
environ : items_t
}.

(** ** flask.Config *)

Module FlaskConfig.

(** Modelled from the spec: [flask.Config] is not under src/. Its loaders
    merge key/value pairs into the store in order, later pairs overriding
    earlier ones, restricted to keys for which [isupper()] holds. *)
Definition merge_upper (W : world) (cfg : gmap string pyobj) (kvs : items_t)
    : gmap string pyobj :=
  foldl (fun c kv => if str_isupper W kv.1 then <[kv.1 := kv.2]> c else c)
        cfg kvs.

(** Modelled from the spec: [Config.from_mapping(mapping)] merges the
    uppercase keys of [mapping.items()]. *)
Definition from_mapping (W : world) (cfg : gmap string pyobj)
    (items : items_t) :=
  merge_upper W cfg items.

(** Modelled from the spec: [Config.from_object(obj)] merges the uppercase
    attributes of [obj]. *)
Definition from_object (W : world) (cfg : gmap string pyobj)
    (attrs : items_t) :=
  merge_upper W cfg attrs.

(** Modelled from the spec: [Config.from_json(filename)] parses the file
    and merges the top-level object's uppercase keys; a read or parse
    error propagates and nothing is merged. *)
Definition from_json (W : world) (cfg : gmap string pyobj) (filename : string)
    : result string (gmap string pyobj) :=
  match load_json W filename with
  | Ok obj => Ok (from_mapping W cfg obj)
  | Err e => Err e
  end.

(** Modelled from the spec: [Config.from_pyfile(filename)] evaluates the
    file and merges its uppercase top-level names; an error propagates and
    nothing is merged. *)
Definition from_pyfile (W : world) (cfg : gmap string pyobj) (filename : string)
    : result string (gmap string pyobj) :=
  match exec_pyfile W filename with
  | Ok d => Ok (from_object W cfg d)
  | Err e => Err e
  end.

(** [Config.keys()]. *)
Definition keys (cfg : gmap string pyobj) : list string :=
  (map_to_list cfg).*1.

End FlaskConfig.

(** ** fleaker.config.MultiStageConfigurableApp *)

(** The application object: the fields of [flask.Flask] that the mixin
  touches. Methods mutate [config] in place; here they return the updated
  object next to their outcome. *)
Record App : Type := mkApp {
import_name : string;
config : gmap string pyobj
}.

Definition with_config (self : App) (cfg : gmap string pyobj) : App :=
{| import_name := import_name self; config := cfg |}.

(** The keyword arguments [configure] looks at; [None] is an absent key. *)
Record kwargs_t : Type := mkKwargs {
kw_whitelist_keys_from_mappings : option bool;
kw_whitelist : option (list string)
}.

Definition no_kwargs : kwargs_t := mkKwargs None None.

Section MultiStageConfigurableApp.

(** Files, import system and environment. *)
Variable W : world.
(** [str(obj)], which ['{}'.format(obj)] applies. *)
Variable py_str : pyobj -> string.

Definition _configure_from_json (self : App) (item : string) : App * outcome :=
  match FlaskConfig.from_json W (config self) item with
  | Ok cfg => (with_config self cfg, Returns RetSelf)
  | Err e => (self, Raises (Propagated e))
  end.

Definition _configure_from_pyfile (self : App) (item : string) : App * outcome :=
  match FlaskConfig.from_pyfile W (config self) item with
  | Ok cfg => (with_config self cfg, Returns RetSelf)
  | Err e => (self, Raises (Propagated e))
  end.

Definition _configure_from_module (self : App) (item : string) : App * outcome :=
  match PyStr.getitem item 0 with
  | None => (self, Raises IndexError)
  | Some c =>
      let package :=
        if Ascii.eqb c "."%char then Some (import_name self) else None in
      match import_module W item package with
      | Err e => (self, Raises (Propagated e))
      | Ok obj =>
          (with_config self (FlaskConfig.from_object W (config self) obj),
           Returns RetSelf)
      end
  end.

Definition _configure_from_mapping (self : App) (item : items_t)
    (whitelist_keys : bool) (whitelist : option (list string))
    : App * outcome :=
  let whitelist :=
    match whitelist with
    | None => FlaskConfig.keys (config self)
    | Some wl => wl
    end in
  let item :=
    if whitelist_keys
    then PyDict.comprehension (fun k => bool_decide (k ∈ whitelist)) item
    else item in
  (with_config self (FlaskConfig.from_mapping W (config self) item),
   Returns RetSelf).

Definition _configure_from_object (self : App) (item : items_t) : App * outcome :=
  (with_config self (FlaskConfig.from_object W (config self) item),
   Returns RetSelf).

Definition unsupported_message (item : pyobj) : string :=
  "Could not determine a valid type for this configuration object: `"
    ++ py_str item ++ "`!".

(** Which loader a string source goes to: the [if]/[elif]/[else] on the
    extension that [splitext] returns. *)
Inductive loader : Type :=
| JsonLoader
| PyfileLoader
| ModuleLoader.

Definition string_loader (item : string) : loader :=
  let ext := (PosixPath.splitext item).2 in
  if bool_decide (ext = ".json") then JsonLoader
  else if bool_decide (ext = ".cfg") || bool_decide (ext = ".py")
  then PyfileLoader
  else ModuleLoader.

(** The body of the [for item in args] loop. The value a helper returns
    is dropped by the loop; only a raise leaves it. *)
Definition configure_item (self : App) (whitelist_keys_from_mappings : bool)
    (whitelist : option (list string)) (item : pyobj) : App * outcome :=
  match item with
  | PyStr s =>
      match string_loader s with
      | JsonLoader => _configure_from_json self s
      | PyfileLoader => _configure_from_pyfile self s
      | ModuleLoader => _configure_from_module self s
      end
  | PyModuleOrClass attrs => _configure_from_object self attrs
  | PyMapping items =>
      _configure_from_mapping self items whitelist_keys_from_mappings whitelist
  | _ => (self, Raises (TypeError (unsupported_message item)))
  end.

Fixpoint configure_loop (self : App) (whitelist_keys_from_mappings : bool)
    (whitelist : option (list string)) (args : list pyobj) : App * outcome :=
  match args with
  | [] => (self, Returns RetNone)
  | item :: rest =>
      match configure_item self whitelist_keys_from_mappings whitelist item with
      | (self', Returns _) =>
          configure_loop self' whitelist_keys_from_mappings whitelist rest
      | (self', Raises e) => (self', Raises e)
      end
  end.

(** [configure(self, *args, **kwargs)]. The function ends with the loop:
    there is no [return] statement, so a call that does not raise hands
    back [None]. *)
Definition configure (self : App) (args : list pyobj) (kwargs : kwargs_t)
    : App * outcome :=
  let whitelist_keys_from_mappings :=
    default false (kw_whitelist_keys_from_mappings kwargs) in
  let whitelist := kw_whitelist kwargs in
  configure_loop self whitelist_keys_from_mappings whitelist args.

Definition configure_from_environment (self : App) (whitelist_keys : bool)
    (whitelist : option (list string)) : App * outcome :=
  let (self', _) :=
    _configure_from_mapping self (environ W) whitelist_keys whitelist in
  (self', Returns RetSelf).

End MultiStageConfigurableApp.

(** ** The store's invariant and the shapes of a source *)

(** The data model's invariant: every key of the store is all-uppercase. *)
Definition store_upper (W : world) (cfg : gmap string pyobj) : Prop :=
  map_Forall (fun k _ => str_isupper W k = true) cfg.

#[global] Instance store_upper_dec W cfg : Decision (store_upper W cfg).
Proof. unfold store_upper. apply _. Defined.

(** The three tests of [configure]'s [isinstance]/[hasattr] chain, in the
    order the chain makes them: [isinstance(item, string_types)],
    [isinstance(item, (types.ModuleType, type))], [hasattr(item, 'items')]. *)
Definition isinstance_string (item : pyobj) : bool :=
  match item with PyStr _ => true | _ => false end.

Definition isinstance_module_or_type (item : pyobj) : bool :=
  match item with PyModuleOrClass _ => true | _ => false end.

Definition hasattr_items (item : pyobj) : bool :=
  match item with PyMapping _ => true | _ => false end.

Definition unsupported (item : pyobj) : bool :=
  negb (isinstance_string item) && negb (isinstance_module_or_type item)
  && negb (hasattr_items item).

(** The environment shortcut as the specification words it: the process
    environment passed as the one source of [configure], with the two
    options under [configure]'s names. *)
Definition environment_through_configure (W : world) (py_str : pyobj -> string)
    (self : App) (whitelist_keys : bool) (whitelist : option (list string))
    : App * outcome :=
  configure W py_str self [PyMapping (environ W)]
    (mkKwargs (Some whitelist_keys) whitelist).

(** ** Shapes of a path *)

(** [c in s] for a character [c]. *)
Fixpoint str_contains (s : string) (c : ascii) : bool :=
  match s with
  | EmptyString => false
  | String a s' => Ascii.eqb a c || str_contains s' c
  end.

(** A directory prefix: empty, or ending in the separator. *)
Fixpoint dir_prefix (s : string) : bool :=
  match s with
  | EmptyString => true
  | String a EmptyString => Ascii.eqb a "/"%char
  | String _ s' => dir_prefix s'
  end.

(** A plain name: no separator and no dot in it. *)
Definition plain_name (s : string) : bool :=
  negb (str_contains s "/"%char) && negb (str_contains s "."%char).

(** ** A sample world *)

Module Sample.

(** The sample world's [isupper]. On a string of ASCII characters it is the
    interpreter's: no letter is lowercase and at least one is uppercase
    ([cased] is the flag of the interpreter's loop). The cased characters
    outside ASCII are not tabulated; the sample sources hold ASCII keys
    only, and every property below is stated for all worlds. *)
Definition is_ascii_upper (a : ascii) : bool :=
  let n := nat_of_ascii a in (65 <=? n)%nat && (n <=? 90)%nat.

Definition is_ascii_lower (a : ascii) : bool :=
  let n := nat_of_ascii a in (97 <=? n)%nat && (n <=? 122)%nat.

Fixpoint ascii_isupper_loop (s : string) (cased : bool) : bool :=
  match s with
  | EmptyString => cased
  | String a s' =>
      if is_ascii_lower a then false
      else ascii_isupper_loop s' (cased || is_ascii_upper a)
  end.

Definition ascii_isupper (s : string) : bool := ascii_isupper_loop s false.

Definition settings_json : items_t :=
  [("DEBUG", PyBool true); ("secret", PyStr "x"); ("PORT", PyInt 8000)].

Definition secrets_module : items_t :=
  [("SECRET_KEY", PyStr "s3cr3t"); ("__name__", PyStr "app.secrets")].

Definition W : world :=
  {| str_isupper := ascii_isupper;
     load_json := fun f =>
       if bool_decide (f = "settings.json") then Ok settings_json
       else Err "IOError";
     exec_pyfile := fun f =>
       if bool_decide (f = "local.cfg") then Ok [("PORT", PyInt 9000)]
       else Err "IOError";
     import_module := fun name package =>
       if bool_decide (name = ".secrets") && bool_decide (package = Some "app")
       then Ok secrets_module
       else if bool_decide (name = "defaults") then Ok [("DEBUG", PyBool false)]
       else Err "ImportError";
     environ := [("PORT", PyInt 80); ("LESSPIPE", PyStr "lesspipe"); ("home", PyStr "/root")] |}.

(** [str()] on the objects that have no source shape. *)
Definition py_str (o : pyobj) : string :=
  match o with
  | PyNone => "None"
  | PyBool true => "True"
  | PyBool false => "False"
  | PyInt n => pretty n
  | PyStr s => s
  | _ => "<object>"
  end.

Definition app : App := mkApp "app" {["PORT" := PyInt 5000]}.

End Sample.

(** * scripts/make_release.py *)

(** The release script, as a program over the working tree and a log of what
    it does to the outside. [parse_changelog], the regular expression of
    [set_filename_version], the dates and the answers of git are taken from
    the environment of the run. *)

Module MakeRelease.

Inductive event : Type :=
| Stderr (line : string)
| Chdir
| Popen (argv : list string)
| WriteFile (filename contents : string).

(** How a run ends early: [sys.exit(code)], or an exception nobody
    catches. *)
Inductive stop : Type :=
| SystemExit (code : Z)
| Uncaught (name : string).

Record state : Type := mkState {
  files : gmap string string;
  log : list event
}.

Definition M (A : Type) : Type := state -> state * (stop + A).

Definition ret {A} (a : A) : M A := fun st => (st, inr a).

Definition bind {A B} (m : M A) (k : A -> M B) : M B :=
  fun st =>
    match m st with
    | (st', inl e) => (st', inl e)
    | (st', inr a) => k a st'
    end.

Definition emit (ev : event) : M unit :=
  fun st => (mkState (files st) (log st ++ [ev]), inr tt).

Definition raise {A} (e : stop) : M A := fun st => (st, inl e).

(** [open(filename).read()]. *)
Definition read_file (filename : string) : M string :=
  fun st =>
    match files st !! filename with
    | Some contents => (st, inr contents)
    | None => (st, inl (Uncaught "IOError"))
    end.

(** [open(filename, 'w').write(contents)]. *)
Definition write_file (filename contents : string) : M unit :=
  fun st =>
    (mkState (<[filename := contents]> (files st))
             (log st ++ [WriteFile filename contents]), inr tt).

Definition quote : string := String "034"%char EmptyString.

(** [str(codename)] under [%s]: the name, or [None]. *)
Definition str_codename (codename : option string) : string :=
  match codename with
  | Some c => c
  | None => "None"
  end.

(** The environment of one run. *)
Record env (date : Type) : Type := mkEnv {
  (** [--test] on the command line. *)
  arg_test : bool;
  sys_executable : string;
  (** [parse_changelog()] on the contents of [CHANGES]: an exception, no
      release found, or version, release date and codename. *)
  parse_changes : string -> stop + option (string * date * option string);
  (** the matches of [^(\s*pattern\s*=\s*')(.+?)(')] in a text: for each
      match the text since the previous one and the three groups, and then
      the text after the last match. *)
  re_matches : string -> string ->
               list (string * (string * string * string)) * string;
  (** the lines of [git tag]. *)
  git_tags : list string;
  (** the exit status of [git diff --quiet]. *)
  git_diff_status : Z;
  today : date;
  (** [str(d)] and [d.strftime('%d/%m/%Y')]. *)
  date_str : date -> string;
  date_dmy : date -> string
}.
Arguments arg_test {date} _.
Arguments sys_executable {date} _.
Arguments parse_changes {date} _ _.
Arguments re_matches {date} _ _ _.
Arguments git_tags {date} _.
Arguments git_diff_status {date} _.
Arguments today {date} _.
Arguments date_str {date} _ _.
Arguments date_dmy {date} _ _.

Section script.
Context {date : Type} `{EqDecision date}.
Variable E : env date.

Local Notation "x <- m ;; k" := (bind m (fun x => k))
  (at level 100, m at next level, right associativity).
Local Notation "m ;;; k" := (bind m (fun _ => k))
  (at level 100, right associativity).

Definition fail {A} (message : string) : M A :=
  emit (Stderr ("Error: " +:+ message)) ;;; raise (SystemExit 1).

Definition info (message : string) : M unit := emit (Stderr message).

Definition parse_changelog : M (option (string * date * option string)) :=
  contents <- read_file "CHANGES" ;;
  match parse_changes E contents with
  | inl e => raise e
  | inr rv => ret rv
  end.

(** [re.sub] with the [inject_version] callback: every match is replaced
    by its first group, the new version and its third group. *)
Definition inject_version (version_number : string)
    (ms : list (string * (string * string * string))) (rest : string) : string :=
  foldr (fun m acc =>
           let '(gap, (before, old, after)) := m in
           gap +:+ before +:+ version_number +:+ after +:+ acc)
        rest ms.

Definition set_filename_version (filename version_number pattern : string)
    : M unit :=
  text <- read_file filename ;;
  let (ms, rest) := re_matches E pattern text in
  let changed := ms in
  let contents := inject_version version_number ms rest in
  (match changed with
   | [] => fail ("Could not find " +:+ pattern +:+ " in " +:+ filename)
   | _ :: _ => ret tt
   end) ;;;
  write_file filename contents.

Definition set_init_version (version : string) : M unit :=
  info ("Setting __init__.py version to " +:+ version) ;;;
  set_filename_version "fleaker/__init__.py" version "__version__".

Definition build_and_upload (pypi_alias : string) : M unit :=
  emit (Popen [sys_executable E; "setup.py"; "release"; "sdist"; "bdist_wheel";
               "upload"; "-r"; pypi_alias]).

Definition get_git_tags : M (list string) :=
  emit (Popen ["git"; "tag"]) ;;; ret (git_tags E).

Definition git_is_clean : M bool :=
  emit (Popen ["git"; "diff"; "--quiet"]) ;;;
  ret (bool_decide (git_diff_status E = 0)).

Definition make_git_commit (message : string) : M unit :=
  emit (Popen ["git"; "commit"; "-am"; message]).

Definition make_git_tag (tag : string) : M unit :=
  info ("Tagging " +:+ quote +:+ tag +:+ quote) ;;;
  emit (Popen ["git"; "tag"; "-s"; "-a"; tag]).

(** The [filename] argument is not used: the file is always [setup.py]. *)
Definition update_download_url (filename version : string) : M unit :=
  let full_url :=
    "https://github.com/croscon/fleaker/archive/" +:+ version +:+ ".tar.gz" in
  set_filename_version "setup.py" full_url "download_url".

Definition main : M unit :=
  let pypi_alias := if negb (arg_test E) then "pypi" else "pypitest" in
  emit Chdir ;;;
  rv <- parse_changelog ;;
  match rv with
  | None => fail "Could not parse changelog"
  | Some (version, release_date, codename) =>
      let tag_version := "v" +:+ version in
      let dev_version := version +:+ "-dev" in
      info ("Releasing " +:+ version +:+ " (codename " +:+ str_codename codename
            +:+ ", release date " +:+ date_dmy E release_date +:+ ")") ;;;
      tags <- get_git_tags ;;
      (if bool_decide (version ∈ tags)
       then fail ("Version " +:+ quote +:+ version +:+ quote
                  +:+ " is already tagged")
       else ret tt) ;;;
      (if bool_decide (release_date ≠ today E)
       then fail ("Release date is not today (" +:+ date_str E release_date
                  +:+ " != " +:+ date_str E (today E) +:+ ")")
       else ret tt) ;;;
      clean <- git_is_clean ;;
      (if negb clean then fail "You have uncommitted changes in git"
       else ret tt) ;;;
      set_init_version version ;;;
      update_download_url "setup.py" tag_version ;;;
      make_git_commit ("Bump version number to " +:+ version) ;;;
      make_git_tag tag_version ;;;
      build_and_upload pypi_alias ;;;
      set_init_version dev_version
  end.

End script.

(** An event that changes the working tree, the repository or the package
    index: a write, or a command other than the two queries. *)
Definition mutating (ev : event) : bool :=
  match ev with
  | WriteFile _ _ => true
  | Popen argv =>
      negb (bool_decide (argv = ["git"; "tag"])
            || bool_decide (argv = ["git"; "diff"; "--quiet"]))
  | _ => false
  end.

(** The three checks of [main] all pass: the changelog names a release that
    is not among the tags and is dated today, and the tree is clean. *)
Definition guards_pass {date : Type} `{EqDecision date} (E : env date)
    (st : state) : bool :=
  match files st !! "CHANGES" with
  | None => false
  | Some contents =>
      match parse_changes E contents with
      | inr (Some (version, release_date, _)) =>
          negb (bool_decide (version ∈ git_tags E))
          && bool_decide (release_date = today E)
          && bool_decide (git_diff_status E = 0)
      | _ => false
      end
  end.

(** The same environment with other tags in the repository. *)
Definition with_tags {date : Type} (E : env date) (tags : list string)
    : env date :=
  mkEnv date (arg_test E) (sys_executable E) (parse_changes E) (re_matches E)
    tags (git_diff_status E) (today E) (date_str E) (date_dmy E).

(** A sample run: release 0.1.0, dated today, in a clean tree where
    [fleaker/__init__.py] has a version line and [setup.py] has no
    [download_url]. *)
Definition sample_env : env string :=
  mkEnv string false "python"
    (fun _ => inr (Some ("0.1.0", "2016-05-01", Some "Zero")))
    (fun pattern text =>
       if bool_decide (pattern = "__version__")
       then ([("", ("__version__ = '", text, "'"))], "")
       else ([], text))
    ["v0.0.9"] 0 "2016-05-01" (fun d => d) (fun d => d).

Definition sample_state : state :=
  mkState (<["CHANGES" := "Version 0.1.0"]>
           (<["fleaker/__init__.py" := "0.0.9-dev"]>
            {["setup.py" := "setup()"]})) [].

End MakeRelease.

(** * Properties *)

(** ** The runtime primitives on examples *)

Example splitext_json : PosixPath.splitext "conf/settings.json" = ("conf/settings", ".json").
Proof. reflexivity. Qed.

Example splitext_dotfile : PosixPath.splitext ".json" = (".json", "").
Proof. reflexivity. Qed.

Example splitext_relative_module : PosixPath.splitext ".secrets" = (".secrets", "").
Proof. reflexivity. Qed.

Example splitext_dir_dot : PosixPath.splitext "a.b/c" = ("a.b/c", "").
Proof. reflexivity. Qed.

Example isupper_examples :
Sample.ascii_isupper "SECRET_KEY" = true /\ Sample.ascii_isupper "Debug" = false /\
Sample.ascii_isupper "" = false /\ Sample.ascii_isupper "123" = false /\
Sample.ascii_isupper "A1" = true.
Proof. repeat split. Qed.

(** ** Dicts *)

Section dict_lemmas.
Implicit Types (d items : items_t) (k : string) (v : pyobj).

Lemma get_not_in d k : k ∉ d.*1 → PyDict.get d k = None.
Proof.
  induction d as [|[k0 v0] d IH]; simpl; [done|].
  rewrite not_elem_of_cons. intros [Hne Hd].
  rewrite IH by done. rewrite bool_decide_eq_false_2; [done | congruence].
Qed.

Lemma get_is_Some d k : is_Some (PyDict.get d k) ↔ k ∈ d.*1.
Proof.
  split.
  - induction d as [|[k0 v0] d IH]; simpl; [by intros [? ?]|].
    destruct (PyDict.get d k) eqn:E.
    + intros _. right. apply IH. eauto.
    + case_bool_decide; [subst; intros _; left | by intros [? ?]].
  - intros Hin. destruct (PyDict.get d k) eqn:E; [eauto|].
    exfalso. revert Hin E.
    induction d as [|[k0 v0] d IH]; simpl; [by intros ?%elem_of_nil|].
    rewrite elem_of_cons. intros [->|Hin].
    + destruct (PyDict.get d k0); [done|]. by rewrite bool_decide_eq_true_2.
    + destruct (PyDict.get d k) eqn:E; [done|]. by apply IH in Hin.
Qed.

Lemma get_app d1 d2 k :
  PyDict.get (d1 ++ d2) k =
    match PyDict.get d2 k with Some w => Some w | None => PyDict.get d1 k end.
Proof.
  induction d1 as [|[k0 v0] d1 IH]; simpl.
  - by destruct (PyDict.get d2 k).
  - rewrite IH. by destruct (PyDict.get d2 k).
Qed.

(** For the items of a real dict (no key twice), [get] is membership. *)
Lemma get_NoDup d k v :
  NoDup d.*1 → PyDict.get d k = Some v ↔ (k, v) ∈ d.
Proof.
  induction d as [|[k0 v0] d IH]; simpl.
  - intros _. split; [done | by intros ?%elem_of_nil].
  - rewrite NoDup_cons. intros [Hk0 Hnd]. rewrite elem_of_cons.
    destruct (PyDict.get d k) as [w|] eqn:E.
    + assert (k ∈ d.*1) as Hin by (apply get_is_Some; rewrite E; eauto).
      rewrite <- IH by done. split.
      * intros [= ->]. by right.
      * intros [[= -> ->]|[= ->]]; [done | done].
    + split.
      * case_bool_decide; [|done]. intros [= ->]. subst. by left.
      * intros [[= -> ->]|Hin]; [by rewrite bool_decide_eq_true_2|].
        apply IH in Hin; [congruence | done].
Qed.

Lemma setitem_keys d k v k' :
  k' ∈ (PyDict.setitem d k v).*1 ↔ k' = k ∨ k' ∈ d.*1.
Proof.
  induction d as [|[k0 v0] d IH]; simpl.
  - rewrite list_elem_of_singleton, elem_of_nil. tauto.
  - case_bool_decide; subst; simpl; rewrite !elem_of_cons.
    + tauto.
    + rewrite IH. tauto.
Qed.

Lemma setitem_NoDup d k v : NoDup d.*1 → NoDup (PyDict.setitem d k v).*1.
Proof.
  induction d as [|[k0 v0] d IH]; simpl.
  - intros _. apply NoDup_singleton.
  - rewrite NoDup_cons. intros [Hk0 Hnd].
    case_bool_decide; subst; simpl; apply NoDup_cons.
    + done.
    + split; [|by apply IH]. rewrite setitem_keys. intros [?|?]; [congruence | done].
Qed.

Lemma get_setitem d k v k' :
  NoDup d.*1 →
  PyDict.get (PyDict.setitem d k v) k' =
    if bool_decide (k = k') then Some v else PyDict.get d k'.
Proof.
  induction d as [|[k0 v0] d IH]; simpl; [done|].
  rewrite NoDup_cons. intros [Hk0 Hnd].
  destruct (decide (k0 = k)) as [->|Hk].
  - rewrite bool_decide_eq_true_2 by done. simpl.
    destruct (decide (k = k')) as [->|Hk'].
    + rewrite bool_decide_eq_true_2 by done. by rewrite get_not_in.
    + by rewrite !(bool_decide_eq_false_2 (k = k')) by done.
  - rewrite (bool_decide_eq_false_2 (k0 = k)) by done. simpl.
    rewrite IH by done.
    destruct (decide (k = k')) as [->|Hk'].
    + by rewrite bool_decide_eq_true_2 by done.
    + by rewrite bool_decide_eq_false_2 by done.
Qed.

(** The dict comprehension, started from an accumulator. *)
Lemma comprehension_from (cond : string → bool) items (acc : items_t) k :
  NoDup acc.*1 →
  let d := foldl (fun d kv => if cond kv.1 then PyDict.setitem d kv.1 kv.2 else d)
                 acc items in
  NoDup d.*1 ∧
  PyDict.get d k =
    if cond k
    then match PyDict.get items k with
         | Some w => Some w
         | None => PyDict.get acc k
         end
    else PyDict.get acc k.
Proof.
  revert acc. induction items as [|[k0 v0] items IH]; intros acc Hnd; simpl.
  - split; [done | by destruct (cond k)].
  - destruct (cond k0) eqn:Ek0.
    + destruct (IH (PyDict.setitem acc k0 v0) (setitem_NoDup _ _ _ Hnd)) as [H1 H2].
      split; [done|]. simpl in H2. rewrite H2, get_setitem by done.
      destruct (decide (k0 = k)) as [->|Hk].
      * rewrite !bool_decide_eq_true_2 by done. rewrite Ek0.
        by destruct (PyDict.get items k).
      * rewrite !(bool_decide_eq_false_2 (k0 = k)) by done.
        by destruct (cond k), (PyDict.get items k).
    + destruct (IH acc Hnd) as [H1 H2]. split; [done|].
      simpl in H2. rewrite H2.
      destruct (decide (k0 = k)) as [->|Hk].
      * rewrite Ek0. done.
      * rewrite !(bool_decide_eq_false_2 (k0 = k)) by done.
        by destruct (cond k), (PyDict.get items k).
Qed.

Lemma comprehension_get (cond : string → bool) items k :
  PyDict.get (PyDict.comprehension cond items) k =
    if cond k then PyDict.get items k else None.
Proof.
  unfold PyDict.comprehension.
  destruct (comprehension_from cond items [] k (NoDup_nil_2)) as [_ ->].
  simpl. destruct (cond k); [|done]. by destruct (PyDict.get items k).
Qed.

Lemma comprehension_NoDup (cond : string → bool) items :
  NoDup (PyDict.comprehension cond items).*1.
Proof.
  unfold PyDict.comprehension.
  by destruct (comprehension_from cond items [] "" (NoDup_nil_2)) as [? _].
Qed.

End dict_lemmas.

(** ** The configuration store *)

Lemma store_upper_spec (W : world) (cfg : gmap string pyobj) :
  store_upper W cfg ↔ ∀ k, is_Some (cfg !! k) → str_isupper W k = true.
Proof.
  unfold store_upper, map_Forall. split.
  - intros H k [v Hv]. by apply (H k v).
  - intros H k v Hv. apply H. eauto.
Qed.

Section store_lemmas.
Variable W : world.
Implicit Types (cfg : gmap string pyobj) (kvs items : items_t) (k : string).

Lemma keys_elem_of cfg k : k ∈ FlaskConfig.keys cfg ↔ is_Some (cfg !! k).
Proof.
  unfold FlaskConfig.keys. rewrite list_elem_of_fmap. split.
  - intros [[k' v] [-> Hin]]. apply elem_of_map_to_list in Hin. eauto.
  - intros [v Hv]. exists (k, v). split; [done|]. by apply elem_of_map_to_list.
Qed.

Lemma merge_upper_cons cfg k0 v0 kvs :
  FlaskConfig.merge_upper W cfg ((k0, v0) :: kvs) =
    FlaskConfig.merge_upper W
      (if str_isupper W k0 then <[k0 := v0]> cfg else cfg) kvs.
Proof. reflexivity. Qed.

(** What the store holds after a merge: for an uppercase key the last pair
    of the source if there is one, otherwise what it held before. *)
Lemma merge_upper_lookup cfg kvs k :
  FlaskConfig.merge_upper W cfg kvs !! k =
    if str_isupper W k
    then match PyDict.get kvs k with
         | Some v => Some v
         | None => cfg !! k
         end
    else cfg !! k.
Proof.
  revert cfg. induction kvs as [|[k0 v0] kvs IH]; intros cfg.
  - simpl. by destruct (str_isupper W k).
  - rewrite merge_upper_cons, IH. simpl.
    destruct (decide (k0 = k)) as [->|Hne].
    + rewrite bool_decide_eq_true_2 by done.
      destruct (str_isupper W k) eqn:Ek; [|done].
      destruct (PyDict.get kvs k); [done|]. by rewrite lookup_insert_eq.
    + rewrite bool_decide_eq_false_2 by done.
      assert ((if str_isupper W k0 then <[k0:=v0]> cfg else cfg) !! k = cfg !! k)
        as -> by (destruct (str_isupper W k0); [by rewrite lookup_insert_ne | done]).
      by destruct (str_isupper W k), (PyDict.get kvs k).
Qed.

Lemma merge_upper_app cfg kvs1 kvs2 :
  FlaskConfig.merge_upper W cfg (kvs1 ++ kvs2) =
    FlaskConfig.merge_upper W (FlaskConfig.merge_upper W cfg kvs1) kvs2.
Proof. apply foldl_app. Qed.

Lemma merge_upper_store_upper cfg kvs :
  store_upper W cfg → store_upper W (FlaskConfig.merge_upper W cfg kvs).
Proof.
  rewrite !store_upper_spec. intros Hcfg k. rewrite merge_upper_lookup.
  destruct (str_isupper W k) eqn:Ek; [done|]. intros Hk. apply Hcfg in Hk. congruence.
Qed.

End store_lemmas.

(** ** The loaders, one source at a time *)

Section loader_lemmas.
Variable W : world.
Variable py_str : pyobj -> string.
Implicit Types (self : App) (k : string) (item : pyobj).

(** The store after [_configure_from_mapping]. *)
Lemma configure_from_mapping_lookup self items wk wl k :
  config (_configure_from_mapping W self items wk wl).1 !! k =
    let allowed :=
      negb wk ||
      bool_decide (k ∈ match wl with
                       | None => FlaskConfig.keys (config self)
                       | Some l => l
                       end) in
    if str_isupper W k && allowed
    then match PyDict.get items k with
         | Some v => Some v
         | None => config self !! k
         end
    else config self !! k.
Proof.
  unfold _configure_from_mapping, FlaskConfig.from_mapping. simpl.
  rewrite merge_upper_lookup.
  destruct (str_isupper W k) eqn:Ek; [|done]. simpl.
  destruct wk; simpl; [|done].
  rewrite comprehension_get. by case_bool_decide.
Qed.

Lemma configure_from_mapping_returns self items wk wl :
  (_configure_from_mapping W self items wk wl).2 = Returns RetSelf.
Proof. reflexivity. Qed.

Lemma configure_from_mapping_import_name self items wk wl :
  import_name (_configure_from_mapping W self items wk wl).1 = import_name self.
Proof. reflexivity. Qed.

(** Every step of the loop keeps the store's invariant, whether it returns
    or raises. *)
Lemma configure_item_store_upper self wk wl item :
  store_upper W (config self) →
  store_upper W (config (configure_item W py_str self wk wl item).1).
Proof.
  intros Hup. destruct item as [| | |s| |attrs|items]; simpl; try done.
  - destruct (string_loader s); simpl.
    1: unfold _configure_from_json, FlaskConfig.from_json;
       destruct (load_json W s); simpl; [by apply merge_upper_store_upper | done].
    1: unfold _configure_from_pyfile, FlaskConfig.from_pyfile;
       destruct (exec_pyfile W s); simpl; [by apply merge_upper_store_upper | done].
    all: unfold _configure_from_module;
       destruct (PyStr.getitem s 0); simpl; [|done];
       destruct (import_module W s _); simpl;
       [by apply merge_upper_store_upper | done].
  - by apply merge_upper_store_upper.
  - by apply merge_upper_store_upper.
Qed.

Lemma configure_loop_store_upper self wk wl args :
  store_upper W (config self) →
  store_upper W (config (configure_loop W py_str self wk wl args).1).
Proof.
  revert self. induction args as [|item args IH]; intros self Hup; simpl; [done|].
  pose proof (configure_item_store_upper self wk wl item Hup) as Hstep.
  destruct (configure_item W py_str self wk wl item) as [self' [r|e]]; simpl in *.
  - by apply IH.
  - done.
Qed.

End loader_lemmas.

(** ** Only uppercase keys enter the store *)

Section uppercase_only.
Variable W : world.
Variable py_str : pyobj -> string.
Implicit Types (self : App) (k : string) (item : pyobj).

Lemma merge_upper_other_case (cfg : gmap string pyobj) (kvs : items_t) k :
  str_isupper W k = false → FlaskConfig.merge_upper W cfg kvs !! k = cfg !! k.
Proof. intros Hk. by rewrite merge_upper_lookup, Hk. Qed.

(** A key that is not all-uppercase is left as it was by every source
    kind, whether the source loads or fails. *)
Lemma configure_item_other_case self wk wl item k :
  str_isupper W k = false →
  config (configure_item W py_str self wk wl item).1 !! k = config self !! k.
Proof.
  intros Hk. destruct item as [| | |s| |attrs|items]; simpl; try done.
  - destruct (string_loader s); simpl.
    1: unfold _configure_from_json, FlaskConfig.from_json;
       destruct (load_json W s); simpl; [by apply merge_upper_other_case | done].
    1: unfold _configure_from_pyfile, FlaskConfig.from_pyfile;
       destruct (exec_pyfile W s); simpl; [by apply merge_upper_other_case | done].
    all: unfold _configure_from_module;
       destruct (PyStr.getitem s 0); simpl; [|done];
       destruct (import_module W s _); simpl;
       [by apply merge_upper_other_case | done].
  - by apply merge_upper_other_case.
  - by apply merge_upper_other_case.
Qed.

Lemma configure_loop_other_case self wk wl args k :
  str_isupper W k = false →
  config (configure_loop W py_str self wk wl args).1 !! k = config self !! k.
Proof.
  intros Hk. revert self.
  induction args as [|item args IH]; intros self; simpl; [done|].
  pose proof (configure_item_other_case self wk wl item k Hk) as Hstep.
  destruct (configure_item W py_str self wk wl item) as [self' [r|e]]; simpl in *.
  - by rewrite IH.
  - done.
Qed.

End uppercase_only.

(** C1. Started from a store whose keys are all uppercase, [configure] and
    [configure_from_environment] leave a store whose keys are all uppercase,
    for every sequence of sources of every kind and whether the call returns
    or raises; a key that is not all-uppercase is never admitted: it is
    absent afterwards. *)
Theorem configure_keys_uppercase (W : world) (py_str : pyobj -> string)
    (self : App) (args : list pyobj) (kwargs : kwargs_t)
    (whitelist_keys : bool) (whitelist : option (list string)) :
  store_upper W (config self) →
  store_upper W (config (configure W py_str self args kwargs).1) ∧
  store_upper W (config (configure_from_environment W self whitelist_keys whitelist).1) ∧
  (∀ k, str_isupper W k = false →
     config (configure W py_str self args kwargs).1 !! k = None ∧
     config (configure_from_environment W self whitelist_keys whitelist).1 !! k = None).
Proof.
  intros Hup. split; [|split].
  - by apply configure_loop_store_upper.
  - by apply merge_upper_store_upper.
  - intros k Hk.
    assert (config self !! k = None) as Hnone.
    { destruct (config self !! k) eqn:E; [|done].
      pose proof (proj1 (store_upper_spec _ _) Hup k) as Hk'.
      rewrite Hk' in Hk; [done | rewrite E; eauto]. }
    split.
    + unfold configure. by rewrite configure_loop_other_case.
    + unfold configure_from_environment. simpl.
      by rewrite merge_upper_other_case.
Qed.

Lemma configure_keys_uppercase_witness :
  store_upper Sample.W (config Sample.app) ∧
  store_upper Sample.W
    (config (configure Sample.W Sample.py_str Sample.app
               [PyStr "settings.json"; PyStr ".secrets";
                PyModuleOrClass [("Debug", PyBool true); ("NAME", PyStr "n")];
                PyMapping [("lower", PyInt 1); ("UPPER", PyInt 2)];
                PyInt 7]
               no_kwargs).1).
Proof.
  assert (store_upper Sample.W (config Sample.app)) as H
    by (apply (bool_decide_unpack _); vm_compute; exact I).
  split; [exact H|].
  exact (proj1 (configure_keys_uppercase Sample.W Sample.py_str Sample.app _
                  no_kwargs false None H)).
Defined.

(** ** Routing of string sources *)

Section slicing.

Lemma slice_concat (n : nat) (s : string) :
  (PyStr.slice_to n s ++ PyStr.slice_from n s)%string = s.
Proof.
  revert s. induction n as [|n IH]; intros [|a s]; simpl; try done.
  change (String a (PyStr.slice_to n s +:+ PyStr.slice_from n s) = String a s).
  f_equal. apply IH.
Qed.

Lemma skip_leading_dots_split p c i j n r :
  PosixPath.skip_leading_dots p c i j n = Some r →
  r = (PyStr.slice_to (Z.to_nat j) p, PyStr.slice_from (Z.to_nat j) p).
Proof.
  revert i. induction n as [|n IH]; intros i; simpl; [done|].
  destruct (negb _); [by intros [= <-] | apply IH].
Qed.

(** [splitext] cuts the path in two: root and extension. *)
Lemma splitext_concat (p : string) :
  ((PosixPath.splitext p).1 ++ (PosixPath.splitext p).2)%string = p.
Proof.
  unfold PosixPath.splitext, PosixPath._splitext. simpl.
  assert ((p ++ "")%string = p) as Hnil.
  { clear. induction p as [|a p IH]; [done|].
    change (String a (p +:+ "") = String a p). by rewrite IH. }
  destruct (_ >? _); [|done].
  destruct (PosixPath.skip_leading_dots _ _ _ _ _) as [r|] eqn:E; [|done].
  apply skip_leading_dots_split in E as ->. simpl. apply slice_concat.
Qed.

End slicing.


(** The three routes on the sample world: each source reaches the loader
    of its extension and nothing else. *)
Example routing_examples :
  string_loader "conf/settings.json" = JsonLoader ∧
  string_loader "local.cfg" = PyfileLoader ∧
  string_loader "settings.py" = PyfileLoader ∧
  string_loader "app.defaults" = ModuleLoader ∧
  string_loader ".secrets" = ModuleLoader ∧
  string_loader "settings.yaml" = ModuleLoader ∧
  string_loader ".json" = ModuleLoader.
Proof. repeat split. Qed.

(** ** The empty string *)

(** C10. The empty string has the string shape and no extension, so it goes
    to the import-path loader, whose [item[0]] raises IndexError: nothing is
    merged, the unsupported-type error is not raised, and the call aborts
    with the store as it was. *)
Theorem empty_string_source (W : world) (py_str : pyobj -> string)
    (self : App) (kwargs : kwargs_t) (rest : list pyobj) :
  isinstance_string (PyStr "") = true ∧
  string_loader "" = ModuleLoader ∧
  _configure_from_module W self "" = (self, Raises IndexError) ∧
  configure W py_str self (PyStr "" :: rest) kwargs = (self, Raises IndexError).
Proof. repeat split. Qed.

(** ** What [configure] returns *)

Lemma configure_loop_retval (W : world) (py_str : pyobj -> string)
    (self : App) wk wl (args : list pyobj) (r : retval) :
  (configure_loop W py_str self wk wl args).2 = Returns r → r = RetNone.
Proof.
  revert self. induction args as [|item args IH]; intros self; simpl.
  - by intros [= <-].
  - destruct (configure_item W py_str self wk wl item) as [self' [r'|e]]; simpl.
    + apply IH.
    + done.
Qed.

(** C8, as the code has it: a call of [configure] that does not raise hands
    back [None], never the host object. *)
Theorem configure_returns_None (W : world) (py_str : pyobj -> string)
    (self : App) (args : list pyobj) (kwargs : kwargs_t) :
  (configure W py_str self args kwargs).2 ≠ Returns RetSelf ∧
  configure W py_str self [] kwargs = (self, Returns RetNone) ∧
  (configure_from_environment W self false None).2 = Returns RetSelf.
Proof.
  split; [|done].
  intros H. by apply configure_loop_retval in H.
Qed.

(** ** The environment shortcut *)

(** C9. For each value of the two options, [configure_from_environment]
    leaves the store that [configure] leaves when the process environment
    is its one source and the options are passed under [configure]'s
    names. *)
Theorem configure_from_environment_refines (W : world) (py_str : pyobj -> string)
    (self : App) (whitelist_keys : bool) (whitelist : option (list string)) :
  config (configure_from_environment W self whitelist_keys whitelist).1 =
  config (environment_through_configure W py_str self whitelist_keys whitelist).1.
Proof. reflexivity. Qed.

(** ** The unsupported-source-type error *)

Section unsupported_type.
Variable W : world.
Variable py_str : pyobj -> string.
Implicit Types (self : App) (item : pyobj) (args pre post : list pyobj).

Lemma configure_item_unsupported self wk wl item :
  unsupported item = true →
  configure_item W py_str self wk wl item =
    (self, Raises (TypeError (unsupported_message py_str item))).
Proof. by destruct item. Qed.

(** A source with one of the three shapes never raises the TypeError of
    [configure]: it loads, or the index or loader error comes out. *)
Lemma configure_item_TypeError self wk wl item self' msg :
  configure_item W py_str self wk wl item = (self', Raises (TypeError msg)) →
  unsupported item = true ∧ self' = self ∧ msg = unsupported_message py_str item.
Proof.
  destruct item as [| | |s| |attrs|items]; simpl;
    try (intros [= <- <-]; done); try done.
  destruct (string_loader s).
  1: unfold _configure_from_json; destruct (FlaskConfig.from_json W _ s); done.
  1: unfold _configure_from_pyfile; destruct (FlaskConfig.from_pyfile W _ s); done.
  all: unfold _configure_from_module; destruct (PyStr.getitem s 0); [|done];
       destruct (import_module W s _); done.
Qed.

Lemma configure_loop_app self wk wl pre post :
  configure_loop W py_str self wk wl (pre ++ post) =
    match configure_loop W py_str self wk wl pre with
    | (self1, Returns _) => configure_loop W py_str self1 wk wl post
    | (self1, Raises e) => (self1, Raises e)
    end.
Proof.
  revert self. induction pre as [|item pre IH]; intros self; simpl; [done|].
  destruct (configure_item W py_str self wk wl item) as [self1 [r|e]]; [apply IH | done].
Qed.

Lemma configure_loop_returns self wk wl args self' r :
  configure_loop W py_str self wk wl args = (self', Returns r) → r = RetNone.
Proof.
  intros H. apply (configure_loop_retval W py_str self wk wl args). by rewrite H.
Qed.

Lemma configure_loop_TypeError self wk wl args self' msg :
  configure_loop W py_str self wk wl args = (self', Raises (TypeError msg)) →
  ∃ pre item post,
    args = (pre ++ item :: post)%list ∧ unsupported item = true ∧
    configure_loop W py_str self wk wl pre = (self', Returns RetNone) ∧
    msg = unsupported_message py_str item.
Proof.
  revert self. induction args as [|item args IH]; intros self; simpl; [done|].
  destruct (configure_item W py_str self wk wl item) as [self1 [r|e]] eqn:Eitem.
  - intros H. destruct (IH _ H) as (pre & bad & post & -> & Hbad & Hpre & ->).
    exists (item :: pre), bad, post. simpl. by rewrite Eitem.
  - intros [= -> ->]. apply configure_item_TypeError in Eitem as (Hbad & -> & ->).
    by exists [], item, args.
Qed.

End unsupported_type.

(** C6. [configure] raises its TypeError, whose message holds [str()] of the
    offending value, exactly when the loop reaches a source that is not a
    string, not a module or class, and has no [items]; the store is then the
    one left by the sources before it. *)
Theorem unsupported_source_type_error (W : world) (py_str : pyobj -> string)
    (self self' : App) (args : list pyobj) (kwargs : kwargs_t) (msg : string) :
  configure W py_str self args kwargs = (self', Raises (TypeError msg)) ↔
  ∃ pre item post,
    args = (pre ++ item :: post)%list ∧
    isinstance_string item = false ∧
    isinstance_module_or_type item = false ∧
    hasattr_items item = false ∧
    configure W py_str self pre kwargs = (self', Returns RetNone) ∧
    msg = ("Could not determine a valid type for this configuration object: `"
             ++ py_str item ++ "`!")%string.
Proof.
  unfold configure. split.
  - intros H. apply configure_loop_TypeError in H
      as (pre & item & post & -> & Hbad & Hpre & ->).
    exists pre, item, post. by destruct item.
  - intros (pre & item & post & -> & H1 & H2 & H3 & Hpre & ->).
    rewrite configure_loop_app, Hpre. simpl.
    rewrite configure_item_unsupported; [done|].
    unfold unsupported. by rewrite H1, H2, H3.
Qed.

(** An integer after a mapping: the mapping is merged, then the error names
    the integer. *)
Example unsupported_integer :
  configure Sample.W Sample.py_str Sample.app
    [PyMapping [("DEBUG", PyBool true)]; PyInt 42; PyMapping [("X", PyInt 1)]]
    no_kwargs =
  (mkApp "app" (<["DEBUG" := PyBool true]> {["PORT" := PyInt 5000]}),
   Raises (TypeError
     "Could not determine a valid type for this configuration object: `42`!")).
Proof. vm_compute. reflexivity. Qed.

(** ** The import-path loader *)

(** C7. A non-empty string routed to the import-path loader is imported
    with the application's import name as package anchor when its first
    character is a dot, and with no anchor (an absolute import) otherwise;
    an import error comes out unchanged, and on success the module's
    uppercase attributes are merged into the store. *)
Theorem import_path_loader (W : world) (py_str : pyobj -> string)
    (self : App) (wk : bool) (wl : option (list string))
    (c : ascii) (rest : string) :
  string_loader (String c rest) = ModuleLoader →
  let item := String c rest in
  let package :=
    if bool_decide (c = "."%char) then Some (import_name self) else None in
  let r := configure_item W py_str self wk wl (PyStr item) in
  match import_module W item package with
  | Err e => r = (self, Raises (Propagated e))
  | Ok module =>
      r.2 = Returns RetSelf ∧
      import_name r.1 = import_name self ∧
      ∀ k, config r.1 !! k =
             if str_isupper W k
             then match PyDict.get module k with
                  | Some v => Some v
                  | None => config self !! k
                  end
             else config self !! k
  end.
Proof.
  intros Hroute. simpl. rewrite Hroute. unfold _configure_from_module. simpl.
  assert ((if Ascii.eqb c "." then Some (import_name self) else None) =
          (if bool_decide (c = "."%char) then Some (import_name self) else None))
    as ->.
  { destruct (Ascii.eqb_spec c "."%char) as [->|Hne]; [done|].
    by rewrite bool_decide_eq_false_2. }
  destruct (import_module W _ _) as [module|e]; [|done].
  simpl. split; [done|]. split; [done|].
  intros k. apply merge_upper_lookup.
Qed.

Lemma import_path_loader_witness :
  string_loader ".secrets" = ModuleLoader ∧
  config (configure_item Sample.W Sample.py_str Sample.app false None
            (PyStr ".secrets")).1 !! "SECRET_KEY" = Some (PyStr "s3cr3t").
Proof.
  split; [reflexivity|].
  pose proof (import_path_loader Sample.W Sample.py_str Sample.app false None
                "."%char "secrets" eq_refl) as H.
  simpl in H. destruct H as (_ & _ & H). rewrite H. reflexivity.
Defined.

(** ** Mapping sources in sequence *)

Section mapping_sequence.
Variable W : world.
Variable py_str : pyobj -> string.
Implicit Types (self : App) (ms pre post : list items_t) (m : items_t) (k : string).



End mapping_sequence.



(** ** The whitelist filter *)

(** One mapping source: the call is [_configure_from_mapping] with the two
    options, and hands back [None]. *)
Lemma configure_single_mapping (W : world) (py_str : pyobj -> string)
    (self : App) (items : items_t) (kwargs : kwargs_t) :
  configure W py_str self [PyMapping items] kwargs =
    ((_configure_from_mapping W self items
        (default false (kw_whitelist_keys_from_mappings kwargs))
        (kw_whitelist kwargs)).1,
     Returns RetNone).
Proof. reflexivity. Qed.

(** C4, as the code has it. With [whitelist_keys_from_mappings=True] and no
    explicit whitelist, a key of the mapping is admitted (the store takes
    the mapping's value) exactly when it is all-uppercase and the store
    already held it before the call; any other key of the mapping leaves the
    store as it was. From [{"A": 1}], the mapping [{"A": 2, "B": 3}] gives
    exactly [{"A": 2}]. *)
Theorem whitelist_defaults_to_store_keys (W : world) (py_str : pyobj -> string)
    (self : App) (items : items_t) (k : string) (v : pyobj) :
  PyDict.get items k = Some v →
  let kwargs := mkKwargs (Some true) None in
  let r := configure W py_str self [PyMapping items] kwargs in
  (str_isupper W k = true → is_Some (config self !! k) →
     config r.1 !! k = Some v) ∧
  (str_isupper W k = false ∨ config self !! k = None →
     config r.1 !! k = config self !! k) ∧
  (str_isupper W "A" = true →
     config (configure W py_str (mkApp (import_name self) {["A" := PyInt 1]})
               [PyMapping [("A", PyInt 2); ("B", PyInt 3)]] kwargs).1
       = {["A" := PyInt 2]}).
Proof.
  intros Hitems kwargs r. subst r kwargs.
  rewrite !configure_single_mapping.
  cbn [fst snd kw_whitelist_keys_from_mappings kw_whitelist default
       from_option id].
  split; [|split].
  - intros Hup Hk. rewrite configure_from_mapping_lookup.
    cbn zeta. rewrite Hup, Hitems.
    by rewrite bool_decide_eq_true_2 by (by apply keys_elem_of).
  - intros Hk. rewrite configure_from_mapping_lookup. cbn zeta.
    destruct Hk as [Hk|Hk]; [by rewrite Hk|].
    rewrite bool_decide_eq_false_2.
    + by rewrite andb_false_r.
    + rewrite keys_elem_of, Hk. by intros [? ?].
  - intros HA. apply map_eq; intros j.
    rewrite configure_from_mapping_lookup. cbn zeta. cbn [config].
    destruct (decide (j = "A")) as [->|Hj].
    + rewrite HA, bool_decide_eq_true_2
        by (apply keys_elem_of; rewrite lookup_singleton_eq; eauto).
      by rewrite lookup_singleton_eq.
    + rewrite bool_decide_eq_false_2, andb_false_r.
      * by rewrite !lookup_singleton_ne.
      * rewrite keys_elem_of, lookup_singleton_ne by done. by intros [? ?].
Qed.

Lemma whitelist_defaults_to_store_keys_witness :
  config (configure Sample.W Sample.py_str (mkApp "app" {["A" := PyInt 1]})
            [PyMapping [("A", PyInt 2); ("B", PyInt 3)]]
            (mkKwargs (Some true) None)).1 !! "A" = Some (PyInt 2).
Proof.
  refine (proj1 (whitelist_defaults_to_store_keys Sample.W Sample.py_str
                   (mkApp "app" {["A" := PyInt 1]})
                   [("A", PyInt 2); ("B", PyInt 3)] "A" (PyInt 2) eq_refl)
                eq_refl _).
  vm_compute. eauto.
Defined.

(** C4 as stated fails on a key that is not all-uppercase: the store held
    ["a"] before the call and the mapping defines it, and the store keeps
    its own value. *)
Lemma default_whitelist_lowercase_key :
  let self := mkApp "app" {["a" := PyInt 1]} in
  let items := [("a", PyInt 2)] in
  let r := configure Sample.W Sample.py_str self [PyMapping items]
             (mkKwargs (Some true) None) in
  config r.1 = {["a" := PyInt 1]} ∧
  ¬ (∀ k v, PyDict.get items k = Some v →
            (config r.1 !! k = Some v ↔ is_Some (config self !! k))).
Proof.
  cbn zeta. split; [vm_compute; reflexivity|].
  intros H. destruct (H "a" (PyInt 2) eq_refl) as [_ H2].
  assert (is_Some (({["a" := PyInt 1]} : gmap string pyobj) !! "a")) as Hsome
    by (vm_compute; eauto).
  specialize (H2 Hsome). vm_compute in H2. discriminate H2.
Qed.

(** C5, as the code has it. With the flag on and an explicit whitelist, the
    store takes the mapping's value at exactly the uppercase keys of the
    mapping that are in the whitelist, whatever the store held; with the
    flag off or absent the whitelist is not looked at and every uppercase
    key of the mapping is merged. *)
Theorem explicit_whitelist_filter (W : world) (py_str : pyobj -> string)
    (self : App) (items : items_t) (wl : list string)
    (wl' : option (list string)) (k : string) :
  let merged (allowed : bool) :=
    if str_isupper W k && allowed
    then match PyDict.get items k with
         | Some v => Some v
         | None => config self !! k
         end
    else config self !! k in
  config (configure W py_str self [PyMapping items]
            (mkKwargs (Some true) (Some wl))).1 !! k
    = merged (bool_decide (k ∈ wl)) ∧
  config (configure W py_str self [PyMapping items]
            (mkKwargs (Some false) wl')).1 !! k = merged true ∧
  config (configure W py_str self [PyMapping items]
            (mkKwargs None wl')).1 !! k = merged true.
Proof.
  intros merged. rewrite !configure_single_mapping.
  cbn [fst snd kw_whitelist_keys_from_mappings kw_whitelist default from_option].
  rewrite !configure_from_mapping_lookup. subst merged. cbn zeta.
  by rewrite !orb_false_l, !orb_true_l.
Qed.

(** C5 as stated fails on a key that is not all-uppercase: it is in the
    mapping and in the explicit whitelist, and is not admitted; and with the
    flag off the mapping is not merged whole. *)
Lemma explicit_whitelist_lowercase_key :
  let items := [("debug", PyInt 1); ("PORT", PyInt 80)] in
  let wl := ["debug"; "PORT"] in
  let on := configure Sample.W Sample.py_str (mkApp "app" ∅)
              [PyMapping items] (mkKwargs (Some true) (Some wl)) in
  let off := configure Sample.W Sample.py_str (mkApp "app" ∅)
               [PyMapping items] (mkKwargs (Some false) (Some wl)) in
  ¬ (∀ k v, PyDict.get items k = Some v → k ∈ wl → config on.1 !! k = Some v) ∧
  ¬ (∀ k v, PyDict.get items k = Some v → config off.1 !! k = Some v).
Proof.
  simpl. split.
  - intros H. specialize (H "debug" (PyInt 1) eq_refl).
    assert ("debug" ∈ ["debug"; "PORT"]) as Hin by (apply elem_of_cons; by left).
    specialize (H Hin). vm_compute in H. discriminate H.
  - intros H. specialize (H "debug" (PyInt 1) eq_refl).
    vm_compute in H. discriminate H.
Qed.

(** * Further properties of [configure] *)

(** ** Sources compose in sequence *)

(** A call with the sources [a] followed by the sources [b] is a call with
    [a] followed by a call with [b] under the same options, and stops with
    the first call if that one raises. *)
Theorem configure_app (W : world) (py_str : pyobj -> string)
    (self : App) (a b : list pyobj) (kwargs : kwargs_t) :
  configure W py_str self (a ++ b) kwargs =
    match configure W py_str self a kwargs with
    | (self1, Returns _) => configure W py_str self1 b kwargs
    | (self1, Raises e) => (self1, Raises e)
    end.
Proof. unfold configure. apply configure_loop_app. Qed.

(** Once a source has raised, the sources after it are never looked at:
    appending sources to a failing call changes neither the store nor the
    error. *)
Theorem configure_stops_at_first_error (W : world) (py_str : pyobj -> string)
    (self self' : App) (args more : list pyobj) (kwargs : kwargs_t) (e : exn) :
  configure W py_str self args kwargs = (self', Raises e) →
  configure W py_str self (args ++ more) kwargs = (self', Raises e).
Proof.
  unfold configure. intros H. by rewrite configure_loop_app, H.
Qed.

Lemma configure_stops_at_first_error_witness :
  configure Sample.W Sample.py_str Sample.app
    ([PyStr "missing.json"] ++ [PyMapping [("DEBUG", PyBool true)]]) no_kwargs
  = (Sample.app, Raises (Propagated "IOError")).
Proof.
  apply (configure_stops_at_first_error Sample.W Sample.py_str Sample.app
           Sample.app [PyStr "missing.json"]).
  vm_compute. reflexivity.
Defined.

(** ** Keys are never removed *)

Section never_removes.
Variable W : world.
Variable py_str : pyobj -> string.
Implicit Types (self : App) (k : string) (item : pyobj).

Lemma merge_upper_is_Some (cfg : gmap string pyobj) (kvs : items_t) k :
  is_Some (cfg !! k) → is_Some (FlaskConfig.merge_upper W cfg kvs !! k).
Proof.
  intros Hk. rewrite merge_upper_lookup.
  destruct (str_isupper W k); [|done]. destruct (PyDict.get kvs k); eauto.
Qed.

Lemma configure_item_is_Some self wk wl item k :
  is_Some (config self !! k) →
  is_Some (config (configure_item W py_str self wk wl item).1 !! k).
Proof.
  intros Hk. destruct item as [| | |s| |attrs|items]; simpl; try done.
  - destruct (string_loader s); simpl.
    1: unfold _configure_from_json, FlaskConfig.from_json;
       destruct (load_json W s); simpl; [by apply merge_upper_is_Some | done].
    1: unfold _configure_from_pyfile, FlaskConfig.from_pyfile;
       destruct (exec_pyfile W s); simpl; [by apply merge_upper_is_Some | done].
    all: unfold _configure_from_module;
       destruct (PyStr.getitem s 0); simpl; [|done];
       destruct (import_module W s _); simpl;
       [by apply merge_upper_is_Some | done].
  - by apply merge_upper_is_Some.
  - by apply merge_upper_is_Some.
Qed.

Lemma configure_loop_is_Some self wk wl args k :
  is_Some (config self !! k) →
  is_Some (config (configure_loop W py_str self wk wl args).1 !! k).
Proof.
  revert self. induction args as [|item args IH]; intros self Hk; simpl; [done|].
  pose proof (configure_item_is_Some self wk wl item k Hk) as Hstep.
  destruct (configure_item W py_str self wk wl item) as [self' [r|e]]; simpl in *.
  - by apply IH.
  - done.
Qed.

End never_removes.

(** Whatever the sources and options, and whether the call returns or
    raises, every key the store held before [configure] is still in it
    afterwards; the same holds for [configure_from_environment]. *)
Theorem configure_never_removes_keys (W : world) (py_str : pyobj -> string)
    (self : App) (args : list pyobj) (kwargs : kwargs_t)
    (wk : bool) (wl : option (list string)) :
  dom (config self) ⊆ dom (config (configure W py_str self args kwargs).1) ∧
  dom (config self) ⊆ dom (config (configure_from_environment W self wk wl).1).
Proof.
  split; intros k; rewrite !elem_of_dom.
  - apply configure_loop_is_Some.
  - apply merge_upper_is_Some.
Qed.

(** ** More on the whitelist *)

Section whitelist_more.
Variable W : world.
Variable py_str : pyobj -> string.
Implicit Types (self : App) (k : string) (items : items_t).

(** With the flag on and no explicit whitelist a mapping only overwrites: a
    key is in the store afterwards iff it was before. *)
Lemma default_whitelist_is_Some self items k :
  is_Some (config (_configure_from_mapping W self items true None).1 !! k) ↔
  is_Some (config self !! k).
Proof.
  rewrite configure_from_mapping_lookup. cbn zeta.
  rewrite orb_false_l.
  destruct (str_isupper W k); [|done]. simpl.
  case_bool_decide as Hin; [|done].
  apply keys_elem_of in Hin.
  destruct (PyDict.get items k); [|done]. split; eauto.
Qed.

Lemma with_config_same self : with_config self (config self) = self.
Proof. by destruct self. Qed.

Lemma comprehension_none (cond : string → bool) items :
  (∀ k, cond k = false) → PyDict.comprehension cond items = [].
Proof.
  intros Hcond. unfold PyDict.comprehension.
  induction items as [|kv items IH]; simpl; [done|]. by rewrite Hcond.
Qed.

End whitelist_more.

(** With [whitelist_keys_from_mappings=True] and no explicit whitelist, a
    mapping source and the environment shortcut leave the set of keys of the
    store exactly as it was: values may change, no key is introduced. *)
Theorem default_whitelist_keeps_key_set (W : world) (py_str : pyobj -> string)
    (self : App) (items : items_t) :
  dom (config (configure W py_str self [PyMapping items]
                 (mkKwargs (Some true) None)).1) = dom (config self) ∧
  dom (config (configure_from_environment W self true None).1)
    = dom (config self).
Proof.
  split; apply set_eq; intros k; rewrite !elem_of_dom.
  - rewrite configure_single_mapping. apply default_whitelist_is_Some.
  - apply (default_whitelist_is_Some W self (environ W) k).
Qed.

(** With the flag on and an explicit whitelist, whatever the store holds
    afterwards it held before, or is the mapping's value at an uppercase key
    of the whitelist. *)
Theorem explicit_whitelist_bounds_store (W : world) (py_str : pyobj -> string)
    (self : App) (items : items_t) (wl : list string) (k : string) (v : pyobj) :
  config (configure W py_str self [PyMapping items]
            (mkKwargs (Some true) (Some wl))).1 !! k = Some v →
  config self !! k = Some v ∨
  (k ∈ wl ∧ str_isupper W k = true ∧ PyDict.get items k = Some v).
Proof.
  rewrite configure_single_mapping.
  cbn [fst snd kw_whitelist_keys_from_mappings kw_whitelist default from_option].
  rewrite configure_from_mapping_lookup. cbn zeta. rewrite orb_false_l.
  destruct (str_isupper W k) eqn:Hk; [|by left]. simpl.
  case_bool_decide as Hin; [|by left].
  destruct (PyDict.get items k) eqn:Hget; [|by left].
  intros [= ->]. by right.
Qed.

Lemma explicit_whitelist_bounds_store_witness :
  config Sample.app !! "PORT" = Some (PyInt 80) ∨
  ("PORT" ∈ ["PORT"; "home"] ∧ str_isupper Sample.W "PORT" = true ∧
   PyDict.get (environ Sample.W) "PORT" = Some (PyInt 80)).
Proof.
  apply (explicit_whitelist_bounds_store Sample.W Sample.py_str Sample.app
           (environ Sample.W) ["PORT"; "home"] "PORT" (PyInt 80)).
  vm_compute. reflexivity.
Defined.

(** An explicit empty whitelist is not the absent one: with the flag on it
    admits nothing, and the application is left as it was. *)
Theorem empty_whitelist_admits_nothing (W : world) (py_str : pyobj -> string)
    (self : App) (items : items_t) :
  configure W py_str self [PyMapping items] (mkKwargs (Some true) (Some []))
    = (self, Returns RetNone) ∧
  configure_from_environment W self true (Some []) = (self, Returns RetSelf).
Proof.
  assert (∀ its, (_configure_from_mapping W self its true (Some [])).1 = self) as H.
  { intros its. unfold _configure_from_mapping. cbn [fst].
    rewrite comprehension_none.
    - apply with_config_same.
    - intros k. apply bool_decide_eq_false_2, not_elem_of_nil. }
  split.
  - by rewrite configure_single_mapping, H.
  - unfold configure_from_environment.
    pose proof (H (environ W)) as HW.
    destruct (_configure_from_mapping W self (environ W) true (Some [])) as [s o].
    simpl in HW. by subst.
Qed.

Lemma App_eq (a b : App) :
  import_name a = import_name b → config a = config b → a = b.
Proof. destruct a, b; simpl; by intros -> ->. Qed.

Lemma configure_from_mapping_twice (W : world) (self : App) (items : items_t)
    (wk : bool) (wl : option (list string)) :
  (_configure_from_mapping W
     (_configure_from_mapping W self items wk wl).1 items wk wl).1
  = (_configure_from_mapping W self items wk wl).1.
Proof.
  set (self1 := (_configure_from_mapping W self items wk wl).1).
  apply App_eq; [done|]. apply map_eq; intros k.
  rewrite (configure_from_mapping_lookup W self1 items wk wl k). cbn zeta.
  destruct (str_isupper W k) eqn:Hk; [|done]. rewrite andb_true_l.
  destruct (PyDict.get items k) as [v|] eqn:Hget; [|by destruct (_ || _)].
  destruct (negb wk || _) eqn:Hallowed; [|done].
  unfold self1. rewrite (configure_from_mapping_lookup W self items wk wl k).
  cbn zeta. rewrite Hk, Hget, andb_true_l.
  destruct wk; cbn [negb orb] in *; [|done].
  destruct wl as [l|]; [by rewrite Hallowed|].
  apply bool_decide_eq_true_1, keys_elem_of in Hallowed.
  apply default_whitelist_is_Some in Hallowed.
  by rewrite bool_decide_eq_true_2 by (by apply keys_elem_of).
Qed.

Lemma configure_cons_mapping (W : world) (py_str : pyobj -> string)
    (self : App) (items : items_t) (rest : list pyobj) (kwargs : kwargs_t) :
  configure W py_str self (PyMapping items :: rest) kwargs =
    configure W py_str
      (_configure_from_mapping W self items
         (default false (kw_whitelist_keys_from_mappings kwargs))
         (kw_whitelist kwargs)).1
      rest kwargs.
Proof. reflexivity. Qed.

(** Passing the same mapping twice, in one call or in two, leaves the
    application as passing it once does, for every setting of the two
    options. *)
Theorem configure_mapping_idempotent (W : world) (py_str : pyobj -> string)
    (self : App) (items : items_t) (kwargs : kwargs_t) :
  let once := configure W py_str self [PyMapping items] kwargs in
  configure W py_str self [PyMapping items; PyMapping items] kwargs = once ∧
  configure W py_str once.1 [PyMapping items] kwargs = once.
Proof.
  intros once. subst once. split.
  - rewrite configure_cons_mapping, !configure_single_mapping.
    by rewrite configure_from_mapping_twice.
  - rewrite !configure_single_mapping. cbn [fst].
    by rewrite configure_from_mapping_twice.
Qed.

(** The whitelist options only concern sources that reach the mapping
    loader: over strings, modules, classes and unsupported values the call
    does the same whatever the options are. *)
Theorem whitelist_only_affects_mappings (W : world) (py_str : pyobj -> string)
    (self : App) (args : list pyobj) (kwargs kwargs' : kwargs_t) :
  Forall (fun item => hasattr_items item = false) args →
  configure W py_str self args kwargs = configure W py_str self args kwargs'.
Proof.
  unfold configure.
  generalize (default false (kw_whitelist_keys_from_mappings kwargs))
             (default false (kw_whitelist_keys_from_mappings kwargs'))
             (kw_whitelist kwargs) (kw_whitelist kwargs').
  intros wk wk' wl wl' Hargs. revert self.
  induction Hargs as [|item args Hitem Hargs IH]; intros self; simpl; [done|].
  assert (configure_item W py_str self wk wl item =
          configure_item W py_str self wk' wl' item) as ->
    by (by destruct item).
  destruct (configure_item W py_str self wk' wl' item) as [self1 [r|e]]; [|done].
  apply IH.
Qed.

Lemma whitelist_only_affects_mappings_witness :
  configure Sample.W Sample.py_str Sample.app
    [PyStr "settings.json"; PyModuleOrClass [("NAME", PyStr "n")]; PyNone]
    (mkKwargs (Some true) (Some [])) =
  configure Sample.W Sample.py_str Sample.app
    [PyStr "settings.json"; PyModuleOrClass [("NAME", PyStr "n")]; PyNone]
    no_kwargs.
Proof.
  apply whitelist_only_affects_mappings.
  apply (bool_decide_unpack _). vm_compute. exact I.
Defined.

Lemma configure_cons_object (W : world) (py_str : pyobj -> string)
    (self : App) (attrs : items_t) (rest : list pyobj) (kwargs : kwargs_t) :
  configure W py_str self (PyModuleOrClass attrs :: rest) kwargs =
    configure W py_str
      (with_config self (FlaskConfig.from_object W (config self) attrs))
      rest kwargs.
Proof. reflexivity. Qed.

(** The documented pattern, defaults first and then a whitelisted mapping:
    the default whitelist is read off the store when the mapping is
    reached, so a key the defaults object has just declared is overridden by
    the mapping, even if the store did not hold it before the call. *)
Theorem defaults_then_whitelisted_mapping (W : world) (py_str : pyobj -> string)
    (self : App) (defaults env : items_t) (k : string) (v0 v : pyobj) :
  str_isupper W k = true →
  PyDict.get defaults k = Some v0 →
  PyDict.get env k = Some v →
  config (configure W py_str self [PyModuleOrClass defaults; PyMapping env]
            (mkKwargs (Some true) None)).1 !! k = Some v.
Proof.
  intros Hk Hdef Henv.
  rewrite configure_cons_object, configure_single_mapping.
  cbn [fst kw_whitelist_keys_from_mappings kw_whitelist default from_option id].
  set (self1 := with_config self (FlaskConfig.from_object W (config self) defaults)).
  assert (config self1 !! k = Some v0) as H1.
  { unfold self1, FlaskConfig.from_object. simpl.
    by rewrite merge_upper_lookup, Hk, Hdef. }
  rewrite (configure_from_mapping_lookup W self1 env true None k).
  cbn zeta. rewrite Hk, Henv, orb_false_l, andb_true_l.
  by rewrite bool_decide_eq_true_2 by (apply keys_elem_of; rewrite H1; eauto).
Qed.

Lemma defaults_then_whitelisted_mapping_witness :
  config (configure Sample.W Sample.py_str (mkApp "app" ∅)
            [PyModuleOrClass [("PORT", PyInt 5000); ("DEBUG", PyBool false)];
             PyMapping (environ Sample.W)]
            (mkKwargs (Some true) None)).1 !! "PORT" = Some (PyInt 80).
Proof.
  exact (defaults_then_whitelisted_mapping Sample.W Sample.py_str (mkApp "app" ∅)
           [("PORT", PyInt 5000); ("DEBUG", PyBool false)] (environ Sample.W)
           "PORT" (PyInt 5000) (PyInt 80) eq_refl eq_refl eq_refl).
Defined.

(** In the same pattern, a key that neither the store nor the defaults
    object holds stays out, whatever the mapping says about it. *)
Theorem undeclared_mapping_key_stays_out (W : world) (py_str : pyobj -> string)
    (self : App) (defaults env : items_t) (k : string) :
  config self !! k = None →
  k ∉ defaults.*1 →
  config (configure W py_str self [PyModuleOrClass defaults; PyMapping env]
            (mkKwargs (Some true) None)).1 !! k = None.
Proof.
  intros Hk Hdef.
  rewrite configure_cons_object, configure_single_mapping.
  cbn [fst kw_whitelist_keys_from_mappings kw_whitelist default from_option id].
  set (self1 := with_config self (FlaskConfig.from_object W (config self) defaults)).
  assert (config self1 !! k = None) as H1.
  { unfold self1, FlaskConfig.from_object. simpl.
    rewrite merge_upper_lookup, get_not_in by done.
    by destruct (str_isupper W k). }
  rewrite (configure_from_mapping_lookup W self1 env true None k).
  cbn zeta. rewrite orb_false_l.
  rewrite bool_decide_eq_false_2, andb_false_r
    by (rewrite keys_elem_of, H1; by intros [? ?]).
  done.
Qed.

Lemma undeclared_mapping_key_stays_out_witness :
  config (configure Sample.W Sample.py_str (mkApp "app" ∅)
            [PyModuleOrClass [("PORT", PyInt 5000)];
             PyMapping (environ Sample.W)]
            (mkKwargs (Some true) None)).1 !! "LESSPIPE" = None.
Proof.
  apply undeclared_mapping_key_stays_out; [reflexivity|].
  apply (bool_decide_unpack _). vm_compute. exact I.
Defined.

(** ** Which paths have which extension *)

Section splitext_shapes.
Implicit Types (s p dir name e : string) (c a : ascii) (i last : Z).

Local Abbreviation len s := (Z.of_nat (String.length s)).

Lemma append_cons a s1 s2 : String a s1 +:+ s2 = String a (s1 +:+ s2).
Proof. reflexivity. Qed.

Lemma append_assoc s1 s2 s3 : (s1 +:+ s2) +:+ s3 = s1 +:+ (s2 +:+ s3).
Proof.
  induction s1 as [|a s1 IH]; [done|]. by rewrite !append_cons, IH.
Qed.

Lemma length_append s1 s2 :
  String.length (s1 +:+ s2) = (String.length s1 + String.length s2)%nat.
Proof.
  induction s1 as [|a s1 IH]; [done|]. rewrite append_cons. simpl. by rewrite IH.
Qed.

Lemma contains_append s1 s2 c :
  str_contains (s1 +:+ s2) c = str_contains s1 c || str_contains s2 c.
Proof.
  induction s1 as [|a s1 IH]; [done|]. rewrite append_cons. simpl.
  by rewrite IH, orb_assoc.
Qed.

Lemma rfind_from_append c s1 s2 i last :
  PyStr.rfind_from c (s1 +:+ s2) i last =
    PyStr.rfind_from c s2 (i + len s1) (PyStr.rfind_from c s1 i last).
Proof.
  revert i last. induction s1 as [|a s1 IH]; intros i last.
  - simpl. by rewrite Z.add_0_r.
  - rewrite append_cons. cbn [PyStr.rfind_from String.length]. rewrite IH.
    f_equal. lia.
Qed.

Lemma rfind_from_absent c s i last :
  str_contains s c = false → PyStr.rfind_from c s i last = last.
Proof.
  revert i last. induction s as [|a s IH]; intros i last; simpl; [done|].
  intros [Ha Hs]%orb_false_elim. by rewrite Ha, IH.
Qed.

Lemma rfind_from_upper c s i last :
  last ≤ i - 1 → PyStr.rfind_from c s i last ≤ i + len s - 1.
Proof.
  revert i last. induction s as [|a s IH]; intros i last Hlast.
  - simpl. lia.
  - cbn [PyStr.rfind_from String.length].
    etrans; [apply IH; destruct (Ascii.eqb a c); lia | lia].
Qed.

Lemma rfind_from_dir_prefix dir i last :
  dir ≠ "" → dir_prefix dir = true →
  PyStr.rfind_from "/" dir i last = i + len dir - 1.
Proof.
  revert i last. induction dir as [|a dir IH]; intros i last Hne Hdir; [done|].
  destruct dir as [|b dir].
  - cbn [dir_prefix] in Hdir. cbn [PyStr.rfind_from String.length].
    rewrite Hdir. lia.
  - change (dir_prefix (String a (String b dir)))
      with (dir_prefix (String b dir)) in Hdir.
    change (PyStr.rfind_from "/" (String a (String b dir)) i last)
      with (PyStr.rfind_from "/" (String b dir) (i + 1)
              (if Ascii.eqb a "/" then i else last)).
    rewrite (IH (i + 1)) by done.
    change (String.length (String a (String b dir)))
      with (S (String.length (String b dir))). lia.
Qed.

Lemma rfind_dir_prefix dir :
  dir_prefix dir = true → PyStr.rfind dir "/" = len dir - 1.
Proof.
  intros Hdir. unfold PyStr.rfind. destruct (decide (dir = "")) as [->|Hne];
    [done|]. by rewrite rfind_from_dir_prefix.
Qed.

Lemma getitem_append s1 s2 :
  PyStr.getitem (s1 +:+ s2) (String.length s1) = PyStr.getitem s2 0.
Proof.
  induction s1 as [|a s1 IH]; [done|]. by rewrite append_cons.
Qed.

Lemma slice_to_append s1 s2 : PyStr.slice_to (String.length s1) (s1 +:+ s2) = s1.
Proof.
  induction s1 as [|a s1 IH]; [by destruct s2|].
  rewrite append_cons. simpl. by rewrite IH.
Qed.

Lemma slice_from_append s1 s2 :
  PyStr.slice_from (String.length s1) (s1 +:+ s2) = s2.
Proof.
  induction s1 as [|a s1 IH]; [done|]. by rewrite append_cons.
Qed.

(** [dir/name.e] with a name that does not start with a dot: the split is
    at the last dot. *)
Lemma splitext_name_ext dir c name e :
  dir_prefix dir = true →
  c ≠ "."%char →
  str_contains (String c name) "/" = false →
  plain_name e = true →
  PosixPath.splitext ((dir +:+ String c name) +:+ String "." e)
    = (dir +:+ String c name, String "." e).
Proof.
  intros Hdir Hc Hname [He1 He2]%andb_prop.
  apply negb_true_iff in He1, He2.
  set (root := dir +:+ String c name).
  assert (PyStr.rfind (root +:+ String "." e) "/" = len dir - 1) as Hsep.
  { unfold PyStr.rfind. rewrite rfind_from_append.
    rewrite (rfind_from_absent "/" (String "." e)) by (simpl; by rewrite He1).
    unfold root. rewrite rfind_from_append, rfind_from_absent by done.
    by apply rfind_dir_prefix. }
  assert (PyStr.rfind (root +:+ String "." e) "." = len root) as Hdot.
  { unfold PyStr.rfind. rewrite rfind_from_append. simpl PyStr.rfind_from.
    by rewrite rfind_from_absent. }
  assert (len root = len dir + 1 + len name) as Hroot.
  { unfold root. rewrite length_append. simpl. lia. }
  unfold PosixPath.splitext, PosixPath._splitext, PosixPath.altsep,
    PosixPath.sep, PosixPath.extsep. cbn zeta.
  rewrite Hsep, Hdot, Hroot.
  replace (len dir + 1 + len name >? len dir - 1) with true by lia.
  replace (Z.to_nat (len dir + 1 + len name - (len dir - 1 + 1)))
    with (S (String.length name)) by lia.
  cbn [PosixPath.skip_leading_dots].
  replace (Z.to_nat (len dir - 1 + 1)) with (String.length dir) by lia.
  assert (PyStr.getitem (root +:+ String "." e) (String.length dir) = Some c)
    as -> by (unfold root; by rewrite append_assoc, getitem_append).
  rewrite bool_decide_eq_false_2 by congruence. cbn [negb].
  replace (Z.to_nat (len dir + 1 + len name)) with (String.length root) by lia.
  by rewrite slice_to_append, slice_from_append.
Qed.

(** [dir/.e]: the dot starts the name, the loop over leading dots runs zero
    times and there is no extension. *)
Lemma splitext_dotfile_shape dir e :
  dir_prefix dir = true →
  plain_name e = true →
  PosixPath.splitext (dir +:+ String "." e) = (dir +:+ String "." e, "").
Proof.
  intros Hdir [He1 He2]%andb_prop. apply negb_true_iff in He1, He2.
  assert (PyStr.rfind (dir +:+ String "." e) "/" = len dir - 1) as Hsep.
  { unfold PyStr.rfind. rewrite rfind_from_append.
    rewrite (rfind_from_absent "/" (String "." e)) by (simpl; by rewrite He1).
    by apply rfind_dir_prefix. }
  assert (PyStr.rfind (dir +:+ String "." e) "." = len dir) as Hdot.
  { unfold PyStr.rfind. rewrite rfind_from_append. simpl PyStr.rfind_from.
    rewrite rfind_from_absent by done. lia. }
  unfold PosixPath.splitext, PosixPath._splitext, PosixPath.altsep,
    PosixPath.sep, PosixPath.extsep. cbn zeta.
  rewrite Hsep, Hdot.
  replace (len dir >? len dir - 1) with true by lia.
  replace (Z.to_nat (len dir - (len dir - 1 + 1))) with O by lia.
  reflexivity.
Qed.

(** [dir/name] with no dot in the name: no extension, whatever dots the
    directory part holds. *)
Lemma splitext_no_dot dir name :
  dir_prefix dir = true →
  plain_name name = true →
  PosixPath.splitext (dir +:+ name) = (dir +:+ name, "").
Proof.
  intros Hdir [Hn1 Hn2]%andb_prop. apply negb_true_iff in Hn1, Hn2.
  assert (PyStr.rfind (dir +:+ name) "/" = len dir - 1) as Hsep.
  { unfold PyStr.rfind. rewrite rfind_from_append, rfind_from_absent by done.
    by apply rfind_dir_prefix. }
  assert (PyStr.rfind (dir +:+ name) "." ≤ len dir - 1) as Hdot.
  { unfold PyStr.rfind. rewrite rfind_from_append, rfind_from_absent by done.
    pose proof (rfind_from_upper "." dir 0 (-1)). lia. }
  unfold PosixPath.splitext, PosixPath._splitext, PosixPath.altsep,
    PosixPath.sep, PosixPath.extsep. cbn zeta.
  rewrite Hsep.
  replace (_ >? _) with false by lia. reflexivity.
Qed.

End splitext_shapes.

(** ** Routing by the shape of the path *)

(** A string [dir/name.e], where the name does not start with a dot, is
    routed by [e] alone: [json] to the JSON loader, [cfg] and [py] to the
    file loader, anything else to the import-path loader. A dotted import
    path whose last component is [json], [cfg] or [py] is therefore read as
    a file. *)
Theorem named_file_routing (W : world) (py_str : pyobj -> string)
    (self : App) (wk : bool) (wl : option (list string))
    (dir : string) (c : ascii) (name e : string) :
  dir_prefix dir = true →
  Ascii.eqb c "." = false →
  str_contains (String c name) "/" = false →
  plain_name e = true →
  let item := (dir +:+ String c name) +:+ String "." e in
  configure_item W py_str self wk wl (PyStr item) =
    if bool_decide (e = "json") then _configure_from_json W self item
    else if bool_decide (e = "cfg" ∨ e = "py")
    then _configure_from_pyfile W self item
    else _configure_from_module W self item.
Proof.
  intros Hdir Hc Hname He item.
  assert (c ≠ "."%char) as Hc' by (intros ->; discriminate Hc).
  cbn [configure_item]. unfold string_loader.
  unfold item. rewrite splitext_name_ext by done. cbn [snd].
  destruct (decide (e = "json")) as [->|Hj].
  { by rewrite !bool_decide_eq_true_2. }
  rewrite (bool_decide_eq_false_2 (e = "json")) by done.
  rewrite (bool_decide_eq_false_2 (String "." e = ".json")) by congruence.
  destruct (decide (e = "cfg")) as [->|Hcfg].
  { rewrite (bool_decide_eq_true_2 (_ ∨ _)) by (by left).
    by rewrite (bool_decide_eq_true_2 (_ = ".cfg")). }
  rewrite (bool_decide_eq_false_2 (String "." e = ".cfg")) by congruence.
  destruct (decide (e = "py")) as [->|Hpy].
  { rewrite (bool_decide_eq_true_2 (_ ∨ _)) by (by right).
    by rewrite (bool_decide_eq_true_2 (_ = ".py")). }
  rewrite (bool_decide_eq_false_2 (String "." e = ".py")) by congruence.
  by rewrite (bool_decide_eq_false_2 (_ ∨ _)) by (intros [?|?]; done).
Qed.

Lemma named_file_routing_witness :
  configure_item Sample.W Sample.py_str Sample.app false None
    (PyStr "conf/settings.json")
  = _configure_from_json Sample.W Sample.app "conf/settings.json".
Proof.
  exact (named_file_routing Sample.W Sample.py_str Sample.app false None
           "conf/" "s"%char "ettings" "json" eq_refl eq_refl eq_refl eq_refl).
Defined.

(** A string [dir/.e], a name that is one dot and then no further dot, has
    no extension: [.json], [conf/.py] and [.cfg] go to the import-path
    loader, not to a file loader. *)
Theorem dotfile_is_import_path (W : world) (py_str : pyobj -> string)
    (self : App) (wk : bool) (wl : option (list string)) (dir e : string) :
  dir_prefix dir = true →
  plain_name e = true →
  configure_item W py_str self wk wl (PyStr (dir +:+ String "." e))
    = _configure_from_module W self (dir +:+ String "." e).
Proof.
  intros Hdir He. cbn [configure_item]. unfold string_loader.
  by rewrite splitext_dotfile_shape.
Qed.

Lemma dotfile_is_import_path_witness :
  configure_item Sample.W Sample.py_str Sample.app false None (PyStr ".json")
    = _configure_from_module Sample.W Sample.app ".json".
Proof.
  exact (dotfile_is_import_path Sample.W Sample.py_str Sample.app false None
           "" "json" eq_refl eq_refl).
Defined.

(** A string [dir/name] with no dot in the name goes to the import-path
    loader, whatever dots the directory part holds. *)
Theorem dotless_name_is_import_path (W : world) (py_str : pyobj -> string)
    (self : App) (wk : bool) (wl : option (list string)) (dir name : string) :
  dir_prefix dir = true →
  plain_name name = true →
  configure_item W py_str self wk wl (PyStr (dir +:+ name))
    = _configure_from_module W self (dir +:+ name).
Proof.
  intros Hdir Hname. cbn [configure_item]. unfold string_loader.
  by rewrite splitext_no_dot.
Qed.

Lemma dotless_name_is_import_path_witness :
  configure_item Sample.W Sample.py_str Sample.app false None
    (PyStr "conf.d/defaults")
  = _configure_from_module Sample.W Sample.app "conf.d/defaults".
Proof.
  exact (dotless_name_is_import_path Sample.W Sample.py_str Sample.app
           false None "conf.d/" "defaults" eq_refl eq_refl).
Defined.

(** * Properties of the release script *)

Section release.
Import MakeRelease.
Context {date : Type} `{EqDecision date}.
Implicit Types (E : env date) (st : state).


Ltac release_log :=
  cbn [files log fst snd]; rewrite <- ?app_assoc; cbn [app];
  split; [reflexivity|]; split; [eauto|];
  eexists; split; [reflexivity|]; by repeat constructor.

(** Unless all three checks pass, [main] ends early and has changed
    nothing: no file is written and no command other than the two git
    queries is run. *)
Theorem main_stops_before_mutation E st :
  guards_pass E st = false →
  let r := main E st in
  files r.1 = files st ∧
  (∃ e, r.2 = inl e) ∧
  ∃ new, log r.1 = (log st ++ new)%list ∧
         Forall (fun ev => mutating ev = false) new.
Proof.
  unfold guards_pass. intros Hguards.
  unfold main, bind, emit, parse_changelog, read_file, bind.
  cbn [files log fst snd].
  destruct (files st !! "CHANGES") as [contents|] eqn:Hfile; [|release_log].
  destruct (parse_changes E contents) as [e|[[[version rd] cn]|]] eqn:Hparse;
    cbn [raise ret]; [release_log| |unfold fail, bind, emit, raise; release_log].
  unfold info, get_git_tags, bind, emit, ret. cbn [files log fst snd].
  destruct (decide (version ∈ git_tags E)) as [Htag|Htag].
  { rewrite (bool_decide_eq_true_2 _ Htag).
    unfold fail, bind, emit, raise; release_log. }
  rewrite (bool_decide_eq_false_2 _ Htag) in Hguards |- *. cbn [ret].
  destruct (decide (rd = today E)) as [Hdate|Hdate].
  2: { rewrite (bool_decide_eq_true_2 (rd ≠ today E)) by done.
       unfold fail, bind, emit, raise; release_log. }
  rewrite (bool_decide_eq_false_2 (rd ≠ today E)) by (by intros ?).
  rewrite (bool_decide_eq_true_2 _ Hdate) in Hguards.
  cbn [ret]. unfold git_is_clean, bind, emit, ret. cbn [files log fst snd].
  cbn [negb andb] in Hguards. rewrite Hguards. cbn [negb].
  unfold fail, bind, emit, raise; release_log.
Qed.

Lemma version_not_its_tag (version : string) : version ≠ "v" +:+ version.
Proof.
  intros Heq. apply (f_equal String.length) in Heq.
  change ("v" +:+ version) with (String "v" version) in Heq. simpl in Heq. lia.
Qed.

Ltac unfold_script :=
  unfold main, set_init_version, update_download_url, set_filename_version,
    make_git_commit, make_git_tag, build_and_upload, get_git_tags,
    git_is_clean, parse_changelog, info, fail, read_file, write_file,
    bind, emit, raise, ret.

(** The check for an existing tag looks for the bare version among the
    tags, while the tag that a release creates is the version with a [v] in
    front: with that tag in the repository the run is, step for step, the
    run without it, so a release that was already tagged by this script is
    not stopped. *)
Theorem tag_guard_misses_own_tag E st (contents version : string)
    (release_date : date) (codename : option string) :
  files st !! "CHANGES" = Some contents →
  parse_changes E contents = inr (Some (version, release_date, codename)) →
  main (with_tags E (("v" +:+ version) :: git_tags E)) st = main E st.
Proof.
  intros Hfile Hparse. unfold_script.
  cbn [with_tags arg_test sys_executable parse_changes re_matches git_tags
       git_diff_status today date_str date_dmy files log fst snd].
  rewrite Hfile, Hparse.
  assert (bool_decide (version ∈ ("v" +:+ version) :: git_tags E)
          = bool_decide (version ∈ git_tags E)) as ->; [|done].
  apply bool_decide_ext. rewrite elem_of_cons. split; [|by right].
  intros [Heq|Hin]; [|done]. by apply version_not_its_tag in Heq.
Qed.

(** The two edits are not one step: when the checks pass and the version
    line of [fleaker/__init__.py] is found but [setup.py] has no
    [download_url] line, the run ends with exit status 1 with the rewritten
    [__init__.py] on disk, before any commit, tag or upload. *)
Theorem second_edit_failure_keeps_first E st (contents version : string)
    (release_date : date) (codename : option string)
    (t1 t2 rest rest2 : string) m ms :
  files st !! "CHANGES" = Some contents →
  parse_changes E contents = inr (Some (version, release_date, codename)) →
  guards_pass E st = true →
  files st !! "fleaker/__init__.py" = Some t1 →
  re_matches E "__version__" t1 = (m :: ms, rest) →
  files st !! "setup.py" = Some t2 →
  re_matches E "download_url" t2 = ([], rest2) →
  let r := main E st in
  r.2 = inl (SystemExit 1) ∧
  files r.1 = <["fleaker/__init__.py" :=
                  inject_version version (m :: ms) rest]> (files st) ∧
  ∃ new, log r.1 = (log st ++ new)%list ∧
         filter (fun ev => mutating ev = true) new =
           [WriteFile "fleaker/__init__.py"
              (inject_version version (m :: ms) rest)].
Proof.
  intros Hfile Hparse Hguards Hinit Hm1 Hsetup Hm2.
  unfold guards_pass in Hguards. rewrite Hfile, Hparse in Hguards.
  apply andb_prop in Hguards as [[Htag Hdate]%andb_prop Hclean].
  apply negb_true_iff in Htag.
  apply bool_decide_eq_true_1 in Hdate.
  unfold_script. cbn [files log fst snd].
  rewrite Hfile, Hparse. cbn [files log fst snd]. rewrite Htag.
  rewrite (bool_decide_eq_false_2 (release_date ≠ today E)) by (by intros ?).
  cbn [files log fst snd]. rewrite Hclean. cbn [negb files log fst snd].
  rewrite Hinit, Hm1. cbn [files log fst snd].
  rewrite lookup_insert_ne by done. rewrite Hsetup, Hm2.
  cbn [files log fst snd]. split; [done|]. split; [done|].
  rewrite <- !app_assoc. cbn [app]. eexists. split; [reflexivity|].
  reflexivity.
Qed.

End release.

Lemma main_stops_before_mutation_witness :
  MakeRelease.files
    (MakeRelease.main
       (MakeRelease.with_tags MakeRelease.sample_env ["0.1.0"])
       MakeRelease.sample_state).1
  = MakeRelease.files MakeRelease.sample_state.
Proof.
  exact (proj1 (main_stops_before_mutation
                  (MakeRelease.with_tags MakeRelease.sample_env ["0.1.0"])
                  MakeRelease.sample_state eq_refl)).
Defined.

Lemma tag_guard_misses_own_tag_witness :
  MakeRelease.main
    (MakeRelease.with_tags MakeRelease.sample_env
       (("v" +:+ "0.1.0") :: MakeRelease.git_tags MakeRelease.sample_env))
    MakeRelease.sample_state
  = MakeRelease.main MakeRelease.sample_env MakeRelease.sample_state.
Proof.
  exact (tag_guard_misses_own_tag MakeRelease.sample_env
           MakeRelease.sample_state "Version 0.1.0" "0.1.0" "2016-05-01"
           (Some "Zero") eq_refl eq_refl).
Defined.

Lemma second_edit_failure_keeps_first_witness :
  (MakeRelease.main MakeRelease.sample_env MakeRelease.sample_state).2
  = inl (MakeRelease.SystemExit 1).
Proof.
  exact (proj1 (second_edit_failure_keeps_first MakeRelease.sample_env
                  MakeRelease.sample_state "Version 0.1.0" "0.1.0"
                  "2016-05-01" (Some "Zero") "0.0.9-dev" "setup()" "" "setup()"
                  ("", ("__version__ = '", "0.0.9-dev", "'")) []
                  eq_refl eq_refl eq_refl eq_refl eq_refl eq_refl eq_refl)).
Defined.
